(** * The browser benchmark workers of tlsn

    Two scripts live in [crates/benches/browser-prover-wasm/pkg/worker.js]:

    - the bootstrap prover script, whose top level calls its own [run()];
    - the Comlink-exposed [class Worker] with the async methods [init] and
      [run].

    Both are glue around functions imported from the wasm-bindgen module
    ([init], [initThreadPool], [init_logging], [wasm_main], [wasm_start],
    [setup_tracing_web]).  The imported functions are foreign code, so they
    are modelled as an arbitrary host: a function from the history so far,
    the callee and the arguments to a completion.  The scripts themselves are
    embedded as programs of a small monad with a log of observable events,
    JavaScript exceptions and suspension on a promise. *)

From Stdlib Require Import String ZArith List Bool Lia.
From ExtLib Require Import Structures.Monad Structures.MonadExc.
Import ListNotations.
Import MonadNotation.
Local Open Scope monad_scope.
Local Open Scope string_scope.
Local Open Scope list_scope.

Set Implicit Arguments.

(** ** JavaScript values *)

(** Only integral numbers are represented: the numbers of these scripts are
    ports and a thread count, and the scripts pass them on without
    arithmetic.  An object is its own properties in insertion order. *)
#[warnings="-register-all"]
Inductive JsValue : Type :=
| JsUndefined
| JsNull
| JsBool (b : bool)
| JsNumber (n : Z)
| JsString (s : string)
| JsObject (props : list (string * JsValue))
| JsPromise (p : PromiseState)
with PromiseState : Type :=
| Fulfilled (v : JsValue)
| Rejected (reason : JsValue)
| Pending.

(** How a synchronous call of a foreign function ends. *)
Inductive Completion : Type :=
| Return (v : JsValue)
| Throw (e : JsValue).

(** ** The imported wasm-bindgen glue *)

Module Glue.
(** [import init, { wasm_main, wasm_start, initThreadPool,
    setup_tracing_web, init_logging } from './tlsn_benches_..._wasm.js'] *)
Inductive Export : Type :=
| init
| wasm_main
| wasm_start
| initThreadPool
| setup_tracing_web
| init_logging.

Definition eqb (f g : Export) : bool :=
  match f, g with
  | init, init | wasm_main, wasm_main | wasm_start, wasm_start
  | initThreadPool, initThreadPool
  | setup_tracing_web, setup_tracing_web
  | init_logging, init_logging => true
  | _, _ => false
  end.
End Glue.

(** ** Observable events, host and store *)

Inductive Event : Type :=
| EvCall (f : Glue.Export) (args : list JsValue)
| EvConsoleError (e : JsValue).

Definition Trace := list Event.

(** The environment a script runs in.  [glue t f args] is what the imported
    function [f] does when it is called with [args] after the events [t]. *)
Record Host : Type := {
  hardwareConcurrency : JsValue;
  glue : Trace -> Glue.Export -> list JsValue -> Completion
}.

(** What a script can change: the log of events (oldest first) and the own
    properties of the [worker] instance ([this] in the methods). *)
Record Store : Type := {
  trace : Trace;
  worker : list (string * JsValue)
}.

Definition log (evs : list Event) (s : Store) : Store :=
  {| trace := trace s ++ evs; worker := worker s |}.

(** [const worker = new Worker()]: the class declares no constructor and no
    field. *)
Definition new_Worker : Store := {| trace := []; worker := [] |}.

(** ** The monad of function bodies *)

(** A body runs against a host and a store and ends normally, by an
    exception, or suspended at an [await] whose promise never settles.  An
    [await] of a promise that does settle is given its eventual result at
    once: the methods below keep no state between their steps, so what
    another request does in the meantime reaches them only through the
    history the host answers from. *)

Inductive Outcome (A : Type) : Type :=
| Normal (a : A)
| Thrown (e : JsValue)
| Suspended.
Arguments Thrown {A} e.
Arguments Suspended {A}.

Definition JS (A : Type) : Type := Host -> Store -> Outcome A * Store.

#[global] Instance Monad_JS : Monad JS := {
  ret := fun _ a _ s => (Normal a, s);
  bind := fun _ _ c k host s =>
    match c host s with
    | (Normal a, s') => k a host s'
    | (Thrown e, s') => (Thrown e, s')
    | (Suspended, s') => (Suspended, s')
    end
}.

(** [throw e] and [try { c } catch (e) { h e }]. *)
#[global] Instance Exc_JS : MonadExc JsValue JS := {
  raise := fun _ e _ s => (Thrown e, s);
  catch := fun _ c h host s =>
    match c host s with
    | (Thrown e, s') => h e host s'
    | r => r
    end
}.

(** [f(...args)] for an imported [f]. *)
Definition call (f : Glue.Export) (args : list JsValue) : JS JsValue :=
  fun host s =>
    match glue host (trace s) f args with
    | Return v => (Normal v, log [EvCall f args] s)
    | Throw e => (Thrown e, log [EvCall f args] s)
    end.

(** [await v]: a value that is no promise is its own result; a promise that
    never settles suspends the function for good. *)
Definition awaited (v : JsValue) : Outcome JsValue :=
  match v with
  | JsPromise (Fulfilled x) => Normal x
  | JsPromise (Rejected e) => Thrown e
  | JsPromise Pending => Suspended
  | _ => Normal v
  end.

Definition await (v : JsValue) : JS JsValue :=
  fun _ s => (awaited v, s).

(** [console.error(e)] *)
Definition console_error (e : JsValue) : JS unit :=
  fun _ s => (Normal tt, log [EvConsoleError e] s).

(** [navigator.hardwareConcurrency] *)
Definition navigator_hardwareConcurrency : JS JsValue :=
  fun host s => (Normal (hardwareConcurrency host), s).

(** The promise an [async function] hands to its caller. *)
Definition async (body : JS JsValue) (host : Host) (s : Store)
  : PromiseState * Store :=
  match body host s with
  | (Normal (JsPromise p), s') => (p, s')
  | (Normal v, s') => (Fulfilled v, s')
  | (Thrown e, s') => (Rejected e, s')
  | (Suspended, s') => (Pending, s')
  end.

(** The i-th formal parameter of a function called with [arguments]. *)
Definition param (i : nat) (arguments : list JsValue) : JsValue :=
  nth i arguments JsUndefined.

(** ** The bootstrap prover script *)

Module Bootstrap.
(** [async function run() { await init();
      await initThreadPool(navigator.hardwareConcurrency);
      await wasm_start(); }] *)
Definition run_body : JS JsValue :=
  p <- call Glue.init [] ;;
  _ <- await p ;;
  n <- navigator_hardwareConcurrency ;;
  p <- call Glue.initThreadPool [n] ;;
  _ <- await p ;;
  p <- call Glue.wasm_start [] ;;
  _ <- await p ;;
  ret JsUndefined.

Definition run (arguments : list JsValue) : Host -> Store -> PromiseState * Store :=
  async run_body.

(** The module's top level: [run();], the promise is dropped. *)
Definition top_level (host : Host) (s : Store) : Store :=
  snd (run [] host s).
End Bootstrap.

(** ** The Comlink worker *)

Module Worker.
(** [let obj = { level: 'Trace', crate_filters: undefined,
                 span_events: undefined };] *)
Definition obj : JsValue :=
  JsObject [("level", JsString "Trace");
            ("crate_filters", JsUndefined);
            ("span_events", JsUndefined)].

Definition init_try : JS JsValue :=
  p <- call Glue.init [] ;;
  _ <- await p ;;
  _ <- call Glue.init_logging [obj] ;;
  n <- navigator_hardwareConcurrency ;;
  p <- call Glue.initThreadPool [n] ;;
  _ <- await p ;;
  ret JsUndefined.

(** [async init() { try { ... } catch (e) { console.error(e); throw e; } }] *)
Definition init_body : JS JsValue :=
  catch init_try (fun e => console_error e ;; raise e).

Definition init (arguments : list JsValue) : Host -> Store -> PromiseState * Store :=
  async init_body.

(** The five formal parameters of [run], bound from the actual ones. *)
Definition run_params (arguments : list JsValue) : list JsValue :=
  let ws_ip := param 0 arguments in
  let ws_port := param 1 arguments in
  let wasm_to_server_port := param 2 arguments in
  let wasm_to_verifier_port := param 3 arguments in
  let wasm_to_native_port := param 4 arguments in
  [ws_ip; ws_port; wasm_to_server_port; wasm_to_verifier_port;
   wasm_to_native_port].

Definition run_try (arguments : list JsValue) : JS JsValue :=
  p <- call Glue.wasm_main (run_params arguments) ;;
  _ <- await p ;;
  ret JsUndefined.

(** [async run(ws_ip, ws_port, wasm_to_server_port, wasm_to_verifier_port,
               wasm_to_native_port)
      { try { await wasm_main(...) } catch (e) { console.error(e); throw e; } }] *)
Definition run_body (arguments : list JsValue) : JS JsValue :=
  catch (run_try arguments) (fun e => console_error e ;; raise e).

Definition run (arguments : list JsValue) : Host -> Store -> PromiseState * Store :=
  async (run_body arguments).
End Worker.

(** ** The Comlink boundary: [Comlink.expose(worker)] *)

Inductive Request : Type :=
| CallInit (arguments : list JsValue)
| CallRun (arguments : list JsValue).

Definition invoke (r : Request) : Host -> Store -> PromiseState * Store :=
  match r with
  | CallInit arguments => Worker.init arguments
  | CallRun arguments => Worker.run arguments
  end.

(** A host that issues its calls one after the other, awaiting each: a
    request runs to its end before the next one starts.  Requests that are
    in flight together interleave at their [await]s; [serve] does not order
    their events. *)
Fixpoint serve (rs : list Request) (host : Host) (s : Store)
  : list PromiseState * Store :=
  match rs with
  | [] => ([], s)
  | r :: rs' =>
      let (p, s1) := invoke r host s in
      let (ps, s2) := serve rs' host s1 in
      (p :: ps, s2)
  end.

(** ** Reading a trace *)

(** The argument lists of the calls of [f], oldest first. *)
Fixpoint calls_to (f : Glue.Export) (t : Trace) : list (list JsValue) :=
  match t with
  | [] => []
  | EvCall g args :: t' =>
      if Glue.eqb f g then args :: calls_to f t' else calls_to f t'
  | EvConsoleError _ :: t' => calls_to f t'
  end.

(** Every call of an imported function, oldest first. *)
Fixpoint calls (t : Trace) : list (Glue.Export * list JsValue) :=
  match t with
  | [] => []
  | EvCall g args :: t' => (g, args) :: calls t'
  | EvConsoleError _ :: t' => calls t'
  end.

(** What [await f(...args)] yields when it is evaluated after [t]. *)
Definition settles (host : Host) (t : Trace) (f : Glue.Export)
  (args : list JsValue) : Outcome JsValue :=
  match glue host t f args with
  | Return v => awaited v
  | Throw e => Thrown e
  end.

Definition completed {A : Type} (o : Outcome A) : bool :=
  match o with
  | Normal _ => true
  | _ => false
  end.

(** The worker has no state field of its own; what an observer can know of
    the runtime is in the history: the pool is up once some
    [await initThreadPool(n)] has completed.  [past] is the history before
    [rest]. *)
Fixpoint ready_after (host : Host) (past rest : Trace) : bool :=
  match rest with
  | [] => false
  | ev :: rest' =>
      match ev with
      | EvCall Glue.initThreadPool args =>
          completed (settles host past Glue.initThreadPool args)
      | _ => false
      end
      || ready_after host (past ++ [ev]) rest'
  end.

Definition runtime_ready (host : Host) (t : Trace) : bool :=
  ready_after host [] t.

(** The events of the two methods. *)
Definition load_call : Event := EvCall Glue.init [].
Definition logging_call : Event := EvCall Glue.init_logging [Worker.obj].
Definition pool_call (host : Host) : Event :=
  EvCall Glue.initThreadPool [hardwareConcurrency host].
Definition session_call (arguments : list JsValue) : Event :=
  EvCall Glue.wasm_main (Worker.run_params arguments).
Definition start_call : Event := EvCall Glue.wasm_start [].

(** An exception [e] is raised inside a request: by the module load, by the
    tracing install, by the pool start, or by the engine session, each
    reached after the steps before it have completed. *)
Inductive raises (host : Host) (s : Store) : Request -> JsValue -> Prop :=
| module_load_raises arguments e :
    settles host (trace s) Glue.init [] = Thrown e ->
    raises host s (CallInit arguments) e
| tracing_install_raises arguments v e :
    settles host (trace s) Glue.init [] = Normal v ->
    glue host (trace s ++ [load_call]) Glue.init_logging [Worker.obj] = Throw e ->
    raises host s (CallInit arguments) e
| pool_start_raises arguments v w e :
    settles host (trace s) Glue.init [] = Normal v ->
    glue host (trace s ++ [load_call]) Glue.init_logging [Worker.obj] = Return w ->
    settles host (trace s ++ [load_call; logging_call]) Glue.initThreadPool
      [hardwareConcurrency host] = Thrown e ->
    raises host s (CallInit arguments) e
| session_raises arguments e :
    settles host (trace s) Glue.wasm_main (Worker.run_params arguments) = Thrown e ->
    raises host s (CallRun arguments) e.

(** ** Hosts used in the examples *)

(** Every imported function returns a promise fulfilled with [undefined];
    eight logical processors. *)
Definition quiet_host : Host := {|
  hardwareConcurrency := JsNumber 8;
  glue := fun _ _ _ => Return (JsPromise (Fulfilled JsUndefined))
|}.

(** As [quiet_host], but the session resolves with a value. *)
Definition answering_host : Host := {|
  hardwareConcurrency := JsNumber 8;
  glue := fun _ f _ =>
    match f with
    | Glue.wasm_main => Return (JsPromise (Fulfilled (JsString "done")))
    | _ => Return (JsPromise (Fulfilled JsUndefined))
    end
|}.

(** As [quiet_host], but the session rejects: the verifier port refuses the
    connection. *)
Definition refusing_host : Host := {|
  hardwareConcurrency := JsNumber 8;
  glue := fun _ f _ =>
    match f with
    | Glue.wasm_main => Return (JsPromise (Rejected (JsString "ConnectionRefused")))
    | _ => Return (JsPromise (Fulfilled JsUndefined))
    end
|}.

Definition demo_arguments : list JsValue :=
  [JsString "127.0.0.1"; JsNumber 8080; JsNumber 443; JsNumber 9001;
   JsNumber 9002].

(** The store of a worker whose first [init()] has completed. *)
Definition after_first_init : Store :=
  snd (Worker.init [] quiet_host new_Worker).

(** The store of a worker whose [init()] has completed under
    [refusing_host]. *)
Definition ready_store : Store :=
  snd (Worker.init [] refusing_host new_Worker).

(** ** Reading a session of requests *)

(** The values handed to [console.error], oldest first. *)
Fixpoint logged_errors (t : Trace) : list JsValue :=
  match t with
  | [] => []
  | EvCall _ _ :: t' => logged_errors t'
  | EvConsoleError e :: t' => e :: logged_errors t'
  end.

(** The parameter lists of the [run] requests, in order. *)
Fixpoint session_requests (rs : list Request) : list (list JsValue) :=
  match rs with
  | [] => []
  | CallRun arguments :: rs' => Worker.run_params arguments :: session_requests rs'
  | CallInit _ :: rs' => session_requests rs'
  end.

(** How many [init] requests there are. *)
Fixpoint init_requests (rs : list Request) : nat :=
  match rs with
  | [] => 0
  | CallInit _ :: rs' => S (init_requests rs')
  | CallRun _ :: rs' => init_requests rs'
  end.

(** As [quiet_host], but [init_logging] hands back a promise that is
    already rejected. *)
Definition careless_logging_host : Host := {|
  hardwareConcurrency := JsNumber 8;
  glue := fun _ f _ =>
    match f with
    | Glue.init_logging => Return (JsPromise (Rejected (JsString "no subscriber")))
    | _ => Return (JsPromise (Fulfilled JsUndefined))
    end
|}.

(** ** The rustdoc implementors file

    [trait.impl/serde/de/trait.Deserialize.js] is one immediately invoked
    function: it builds the table [implementors] (an object literal of HTML
    strings, which the function never inspects and which is a parameter
    here) and then
    [if (window.register_implementors)
       { window.register_implementors(implementors); }
     else { window.pending_implementors = implementors; }]. *)

Module Implementors.
(** What a property of [window] holds: a value that cannot be called, or a
    function, known by an identifier; what the function does is the
    browser's side. *)
Inductive Slot : Type :=
| Data (v : JsValue)
| Function (id : nat).

(** The own properties of [window], in insertion order. *)
Definition Window := list (string * Slot).

(** [window.k] *)
Fixpoint get_property (k : string) (w : Window) : option Slot :=
  match w with
  | [] => None
  | (k', v) :: w' => if String.eqb k k' then Some v else get_property k w'
  end.

(** [window.k = v] *)
Fixpoint set_property (k : string) (v : Slot) (w : Window) : Window :=
  match w with
  | [] => [(k, v)]
  | (k', v') :: w' =>
      if String.eqb k k' then (k, v) :: w' else (k', v') :: set_property k v w'
  end.

(** The condition of an [if]: a missing property reads as [undefined]. *)
Definition to_boolean (x : option Slot) : bool :=
  match x with
  | None => false
  | Some (Function _) => true
  | Some (Data v) =>
      match v with
      | JsUndefined | JsNull => false
      | JsBool b => b
      | JsNumber n => negb (n =? 0)%Z
      | JsString s => negb (String.eqb s "")
      | JsObject _ | JsPromise _ => true
      end
  end.

(** The browser: what calling function [id] with [this = window] does, and
    the [TypeError] raised by a call of something that is no function. *)
Record Browser : Type := {
  apply : nat -> Window -> list JsValue -> Completion * Window;
  type_error : JsValue
}.

(** The state of the page: [window] and the calls made so far. *)
Record Page : Type := {
  window : Window;
  called : list (nat * list JsValue)
}.

Definition script (implementors : JsValue) (b : Browser) (p : Page)
  : Completion * Page :=
  if to_boolean (get_property "register_implementors" (window p)) then
    match get_property "register_implementors" (window p) with
    | Some (Function id) =>
        let (c, w') := apply b id (window p) [implementors] in
        let p' := {| window := w';
                     called := called p ++ [(id, [implementors])] |} in
        match c with
        | Return _ => (Return JsUndefined, p')
        | Throw e => (Throw e, p')
        end
    | _ => (Throw (type_error b), p)
    end
  else
    (Return JsUndefined,
     {| window := set_property "pending_implementors" (Data implementors)
                    (window p);
        called := called p |}).

(** A browser whose functions do nothing, and a page on which rustdoc's
    main script has not run yet. *)
Definition idle_browser : Browser := {|
  apply := fun _ w _ => (Return JsUndefined, w);
  type_error := JsString "TypeError"
|}.

Definition early_page : Page := {|
  window := [("location", Data (JsString "trait.Deserialize.html"))];
  called := []
|}.
End Implementors.

(** * Properties *)

(** ** Stores and traces *)

Lemma log_log evs1 evs2 s : log evs2 (log evs1 s) = log (evs1 ++ evs2) s.
Proof. unfold log; simpl. now rewrite app_assoc. Qed.

Lemma calls_to_app f t1 t2 : calls_to f (t1 ++ t2) = calls_to f t1 ++ calls_to f t2.
Proof.
  induction t1 as [|[g args|e] t1 IH]; simpl; auto.
  destruct (Glue.eqb f g); simpl; now rewrite IH.
Qed.

Lemma calls_app t1 t2 : calls (t1 ++ t2) = calls t1 ++ calls t2.
Proof.
  induction t1 as [|[g args|e] t1 IH]; simpl; auto; now rewrite IH.
Qed.

(** ** One awaited call *)

Lemma call_await_then {B : Type} f args (k : JS B) host s :
  (p <- call f args ;; _ <- await p ;; k) host s =
  match settles host (trace s) f args with
  | Normal _ => k host (log [EvCall f args] s)
  | Thrown e => (Thrown e, log [EvCall f args] s)
  | Suspended => (Suspended, log [EvCall f args] s)
  end.
Proof.
  unfold settles, call, await; simpl.
  destruct (glue host (trace s) f args) as [v|e]; reflexivity.
Qed.

Lemma call_then {B : Type} f args (k : JS B) host s :
  (_ <- call f args ;; k) host s =
  match glue host (trace s) f args with
  | Return _ => k host (log [EvCall f args] s)
  | Throw e => (Thrown e, log [EvCall f args] s)
  end.
Proof.
  unfold call; simpl.
  destruct (glue host (trace s) f args); reflexivity.
Qed.

(** ** The three functions, case by case *)

Lemma init_try_cases host s :
  Worker.init_try host s =
  match settles host (trace s) Glue.init [] with
  | Thrown e => (Thrown e, log [load_call] s)
  | Suspended => (Suspended, log [load_call] s)
  | Normal _ =>
      match glue host (trace s ++ [load_call]) Glue.init_logging [Worker.obj] with
      | Throw e => (Thrown e, log [load_call; logging_call] s)
      | Return _ =>
          match settles host (trace s ++ [load_call; logging_call])
                  Glue.initThreadPool [hardwareConcurrency host] with
          | Normal _ =>
              (Normal JsUndefined, log [load_call; logging_call; pool_call host] s)
          | Thrown e =>
              (Thrown e, log [load_call; logging_call; pool_call host] s)
          | Suspended =>
              (Suspended, log [load_call; logging_call; pool_call host] s)
          end
      end
  end.
Proof.
  unfold Worker.init_try.
  rewrite call_await_then.
  destruct (settles host (trace s) Glue.init []); try reflexivity.
  rewrite call_then. simpl trace. fold load_call.
  destruct (glue host (trace s ++ [load_call]) Glue.init_logging [Worker.obj]);
    rewrite log_log; try reflexivity.
  change ((n <- navigator_hardwareConcurrency ;;
           p <- call Glue.initThreadPool [n] ;; _ <- await p ;; ret JsUndefined)
            host (log ([load_call] ++ [EvCall Glue.init_logging [Worker.obj]]) s))
    with ((p <- call Glue.initThreadPool [hardwareConcurrency host] ;;
           _ <- await p ;; ret JsUndefined)
            host (log [load_call; logging_call] s)).
  rewrite call_await_then. simpl trace.
  destruct (settles host (trace s ++ [load_call; logging_call])
              Glue.initThreadPool [hardwareConcurrency host]);
    rewrite log_log; reflexivity.
Qed.

Lemma catch_log_rethrow (c : JS JsValue) host s :
  async (catch c (fun e => console_error e ;; raise e)) host s =
  match c host s with
  | (Thrown e, s') => (Rejected e, log [EvConsoleError e] s')
  | r => async (fun _ _ => r) host s
  end.
Proof.
  unfold async; simpl.
  destruct (c host s) as [[v|e|] s']; reflexivity.
Qed.

Lemma init_cases arguments host s :
  Worker.init arguments host s =
  match settles host (trace s) Glue.init [] with
  | Thrown e => (Rejected e, log [load_call; EvConsoleError e] s)
  | Suspended => (Pending, log [load_call] s)
  | Normal _ =>
      match glue host (trace s ++ [load_call]) Glue.init_logging [Worker.obj] with
      | Throw e =>
          (Rejected e, log [load_call; logging_call; EvConsoleError e] s)
      | Return _ =>
          match settles host (trace s ++ [load_call; logging_call])
                  Glue.initThreadPool [hardwareConcurrency host] with
          | Normal _ =>
              (Fulfilled JsUndefined,
               log [load_call; logging_call; pool_call host] s)
          | Thrown e =>
              (Rejected e,
               log [load_call; logging_call; pool_call host; EvConsoleError e] s)
          | Suspended =>
              (Pending, log [load_call; logging_call; pool_call host] s)
          end
      end
  end.
Proof.
  unfold Worker.init, Worker.init_body.
  rewrite catch_log_rethrow, init_try_cases.
  destruct (settles host (trace s) Glue.init []);
    [ | now rewrite log_log | reflexivity ].
  destruct (glue host (trace s ++ [load_call]) Glue.init_logging [Worker.obj]);
    [ | now rewrite log_log ].
  destruct (settles host (trace s ++ [load_call; logging_call])
              Glue.initThreadPool [hardwareConcurrency host]);
    [ reflexivity | now rewrite log_log | reflexivity ].
Qed.

Lemma run_cases arguments host s :
  Worker.run arguments host s =
  match settles host (trace s) Glue.wasm_main (Worker.run_params arguments) with
  | Normal _ => (Fulfilled JsUndefined, log [session_call arguments] s)
  | Thrown e => (Rejected e, log [session_call arguments; EvConsoleError e] s)
  | Suspended => (Pending, log [session_call arguments] s)
  end.
Proof.
  unfold Worker.run, Worker.run_body, Worker.run_try.
  rewrite catch_log_rethrow, call_await_then.
  destruct (settles host (trace s) Glue.wasm_main (Worker.run_params arguments));
    [ reflexivity | now rewrite log_log | reflexivity ].
Qed.

Lemma bootstrap_run_cases arguments host s :
  Bootstrap.run arguments host s =
  match settles host (trace s) Glue.init [] with
  | Thrown e => (Rejected e, log [load_call] s)
  | Suspended => (Pending, log [load_call] s)
  | Normal _ =>
      match settles host (trace s ++ [load_call]) Glue.initThreadPool
              [hardwareConcurrency host] with
      | Thrown e => (Rejected e, log [load_call; pool_call host] s)
      | Suspended => (Pending, log [load_call; pool_call host] s)
      | Normal _ =>
          match settles host (trace s ++ [load_call; pool_call host])
                  Glue.wasm_start [] with
          | Thrown e =>
              (Rejected e, log [load_call; pool_call host; start_call] s)
          | Suspended =>
              (Pending, log [load_call; pool_call host; start_call] s)
          | Normal _ =>
              (Fulfilled JsUndefined,
               log [load_call; pool_call host; start_call] s)
          end
      end
  end.
Proof.
  unfold Bootstrap.run, Bootstrap.run_body, async.
  rewrite call_await_then.
  destruct (settles host (trace s) Glue.init []); try reflexivity.
  change ((n <- navigator_hardwareConcurrency ;;
           p <- call Glue.initThreadPool [n] ;; _ <- await p ;;
           p0 <- call Glue.wasm_start [] ;; _ <- await p0 ;; ret JsUndefined)
            host (log [EvCall Glue.init []] s))
    with ((p <- call Glue.initThreadPool [hardwareConcurrency host] ;;
           _ <- await p ;;
           p0 <- call Glue.wasm_start [] ;; _ <- await p0 ;; ret JsUndefined)
            host (log [load_call] s)).
  rewrite call_await_then. simpl trace.
  destruct (settles host (trace s ++ [load_call]) Glue.initThreadPool
              [hardwareConcurrency host]); rewrite log_log; try reflexivity.
  rewrite call_await_then. simpl trace. fold (pool_call host).
  destruct (settles host (trace s ++ [load_call; pool_call host])
              Glue.wasm_start []); rewrite log_log; reflexivity.
Qed.

(** ** Readiness is a property of the history *)

Lemma ready_after_app host past t1 t2 :
  ready_after host past (t1 ++ t2) =
  ready_after host past t1 || ready_after host (past ++ t1) t2.
Proof.
  revert past; induction t1 as [|ev t1 IH]; intros past; simpl.
  - now rewrite app_nil_r.
  - rewrite IH, <- app_assoc, orb_assoc. reflexivity.
Qed.

Lemma runtime_ready_app host t evs :
  runtime_ready host (t ++ evs) = runtime_ready host t || ready_after host t evs.
Proof. unfold runtime_ready. now rewrite ready_after_app. Qed.

(** Once ready, always ready: the history only grows. *)
Lemma runtime_ready_mono host t evs :
  runtime_ready host t = true -> runtime_ready host (t ++ evs) = true.
Proof. intros H. now rewrite runtime_ready_app, H. Qed.

(** ** Concrete runs *)

Example init_then_run_quiet :
  serve [CallInit []; CallRun demo_arguments] quiet_host new_Worker =
  ([Fulfilled JsUndefined; Fulfilled JsUndefined],
   log [load_call; logging_call; pool_call quiet_host;
        session_call demo_arguments] new_Worker).
Proof. reflexivity. Qed.

Example run_refused :
  Worker.run demo_arguments refusing_host ready_store =
  (Rejected (JsString "ConnectionRefused"),
   log [session_call demo_arguments;
        EvConsoleError (JsString "ConnectionRefused")] ready_store).
Proof. reflexivity. Qed.

Example run_with_four_arguments :
  Worker.run_params [JsString "example.com"; JsNumber 443; JsNumber 9001;
                     JsNumber 9002] =
  [JsString "example.com"; JsNumber 443; JsNumber 9001; JsNumber 9002;
   JsUndefined].
Proof. reflexivity. Qed.

Example bootstrap_quiet :
  trace (Bootstrap.top_level quiet_host new_Worker) =
  [load_call; pool_call quiet_host; start_call].
Proof. reflexivity. Qed.

(** ** Shared facts about [Worker.init] and [Worker.run] *)

Lemma run_params_exact arguments :
  length arguments = 5 -> Worker.run_params arguments = arguments.
Proof.
  destruct arguments as [|a0 [|a1 [|a2 [|a3 [|a4 [|a5 rest]]]]]];
    simpl; intros H; try discriminate; reflexivity.
Qed.

(** A fulfilled [init()] has done all three steps, and nothing else. *)
Lemma init_fulfilled arguments host s v s' :
  Worker.init arguments host s = (Fulfilled v, s') ->
  v = JsUndefined /\ s' = log [load_call; logging_call; pool_call host] s.
Proof.
  rewrite init_cases.
  destruct (settles host (trace s) Glue.init []); try discriminate.
  destruct (glue host (trace s ++ [load_call]) Glue.init_logging [Worker.obj]);
    try discriminate.
  destruct (settles host (trace s ++ [load_call; logging_call])
              Glue.initThreadPool [hardwareConcurrency host]); try discriminate.
  intros H; injection H as <- <-; auto.
Qed.

(** The reason of a rejected request is an error raised by one of its
    steps: the layer invents no error of its own. *)
Lemma rejection_is_original host s r e s' :
  invoke r host s = (Rejected e, s') -> raises host s r e.
Proof.
  destruct r as [arguments|arguments]; simpl.
  - rewrite init_cases.
    destruct (settles host (trace s) Glue.init []) as [v| |] eqn:Hload;
      try discriminate.
    + destruct (glue host (trace s ++ [load_call]) Glue.init_logging [Worker.obj])
        as [w|e'] eqn:Hlog.
      * destruct (settles host (trace s ++ [load_call; logging_call])
                    Glue.initThreadPool [hardwareConcurrency host]) eqn:Hpool;
          try discriminate.
        intros H; injection H as <- _.
        eapply pool_start_raises; eauto.
      * intros H; injection H as <- _.
        eapply tracing_install_raises; eauto.
    + intros H; injection H as <- _. now apply module_load_raises.
  - rewrite run_cases.
    destruct (settles host (trace s) Glue.wasm_main (Worker.run_params arguments))
      eqn:Hrun; try discriminate.
    intros H; injection H as <- _. now apply session_raises.
Qed.

(** * The claims *)

(** C1 (as the code has it).  [run()] has no readiness check.  For every
    argument tuple and every store, whether [init()] was never called, is in
    flight, failed or completed, [run()] first calls [wasm_main] with its
    five parameters and calls no other imported function; and it rejects
    with [e] exactly when that awaited call raises [e]. *)
Theorem run_has_no_readiness_check host s arguments :
  exists tail,
    trace (snd (Worker.run arguments host s)) =
      trace s ++ session_call arguments :: tail /\
    calls tail = [] /\
    forall e,
      fst (Worker.run arguments host s) = Rejected e <->
      settles host (trace s) Glue.wasm_main (Worker.run_params arguments) = Thrown e.
Proof.
  rewrite run_cases.
  destruct (settles host (trace s) Glue.wasm_main (Worker.run_params arguments))
    as [v|e0|].
  - exists []. repeat split; intros; discriminate.
  - exists [EvConsoleError e0]. repeat split; intros H; injection H as ->; auto.
  - exists []. repeat split; intros; discriminate.
Qed.

(** Counterexample to C1 as the specification words it: on a fresh worker,
    whose runtime is not ready, [run()] does not reject and does call
    [wasm_main]. *)
Lemma run_before_init_starts_session :
  runtime_ready quiet_host (trace new_Worker) = false /\
  fst (Worker.run demo_arguments quiet_host new_Worker) = Fulfilled JsUndefined /\
  calls_to Glue.wasm_main
    (trace (snd (Worker.run demo_arguments quiet_host new_Worker))) =
  [demo_arguments].
Proof. repeat split. Qed.

(** C2.  Called with five arguments, [run()] calls [wasm_main] with exactly
    these five values in this order, and that is the only call of an
    imported function that it makes. *)
Theorem run_hands_parameters_over host s arguments :
  length arguments = 5 ->
  calls (trace (snd (Worker.run arguments host s))) =
  calls (trace s) ++ [(Glue.wasm_main, arguments)].
Proof.
  intros Hlen. rewrite run_cases. unfold session_call.
  rewrite (run_params_exact _ Hlen).
  destruct (settles host (trace s) Glue.wasm_main arguments);
    simpl; now rewrite calls_app.
Qed.

Lemma run_hands_parameters_over_witness :
  length demo_arguments = 5 /\
  calls (trace (snd (Worker.run demo_arguments refusing_host new_Worker))) =
  calls (trace new_Worker) ++ [(Glue.wasm_main, demo_arguments)].
Proof.
  split; [reflexivity | apply run_hands_parameters_over; reflexivity].
Defined.

(** C3 (as the code has it).  When the awaited [wasm_main] call completes
    with a value [v], [run()] resolves with [undefined]: the value is
    awaited and dropped, the body has no [return]. *)
Theorem run_resolves_with_undefined host s arguments v :
  settles host (trace s) Glue.wasm_main (Worker.run_params arguments) = Normal v ->
  Worker.run arguments host s =
  (Fulfilled JsUndefined, log [session_call arguments] s).
Proof. intros H. now rewrite run_cases, H. Qed.

Lemma run_resolves_with_undefined_witness :
  Worker.run demo_arguments answering_host new_Worker =
  (Fulfilled JsUndefined, log [session_call demo_arguments] new_Worker).
Proof.
  apply (@run_resolves_with_undefined answering_host new_Worker demo_arguments
           (JsString "done")).
  reflexivity.
Defined.

(** Counterexample to C3 as the specification words it: the session
    completes with the string [done], and [run()] resolves with
    [undefined]. *)
Lemma run_drops_session_value :
  settles answering_host (trace new_Worker) Glue.wasm_main
    (Worker.run_params demo_arguments) = Normal (JsString "done") /\
  fst (Worker.run demo_arguments answering_host new_Worker) = Fulfilled JsUndefined /\
  fst (Worker.run demo_arguments answering_host new_Worker) <>
    Fulfilled (JsString "done").
Proof. repeat split. discriminate. Qed.

(** C4.  Whatever a step of [init()] or [run()] raises (module load,
    tracing install, pool start, engine session), the request is rejected
    with that very error, the last thing the method did was
    [console.error] of it, and the worker instance is untouched. *)
Theorem errors_logged_and_rethrown host s r e :
  raises host s r e ->
  exists evs,
    invoke r host s = (Rejected e, log (evs ++ [EvConsoleError e]) s).
Proof.
  intros H; destruct H as [arguments e Hload|arguments v e Hload Hlog
                          |arguments v w e Hload Hlog Hpool|arguments e Hrun];
    simpl.
  - rewrite init_cases, Hload. now exists [load_call].
  - rewrite init_cases, Hload, Hlog. now exists [load_call; logging_call].
  - rewrite init_cases, Hload, Hlog, Hpool.
    now exists [load_call; logging_call; pool_call host].
  - rewrite run_cases, Hrun. now exists [session_call arguments].
Qed.

Lemma errors_logged_and_rethrown_witness :
  exists evs,
    invoke (CallRun demo_arguments) refusing_host new_Worker =
    (Rejected (JsString "ConnectionRefused"),
     log (evs ++ [EvConsoleError (JsString "ConnectionRefused")]) new_Worker).
Proof.
  apply errors_logged_and_rethrown.
  apply session_raises. reflexivity.
Defined.

(** C5 (as the code has it).  [init()] keeps no record of having run.  When
    a host issues any number of [init()] calls one after the other and all
    of them are fulfilled, each of them has called [initThreadPool] once
    more, with the hardware concurrency. *)
Theorem every_fulfilled_init_requests_pool host argss :
  forall s ps s',
    serve (map CallInit argss) host s = (ps, s') ->
    Forall (fun p => p = Fulfilled JsUndefined) ps ->
    calls_to Glue.initThreadPool (trace s') =
    calls_to Glue.initThreadPool (trace s) ++
    repeat [hardwareConcurrency host] (length argss).
Proof.
  induction argss as [|arguments argss IH]; intros s ps s'; simpl.
  - intros H _; injection H as _ <-. now rewrite app_nil_r.
  - destruct (Worker.init arguments host s) as [p s1] eqn:Hinit.
    destruct (serve (map CallInit argss) host s1) as [ps' s2] eqn:Hrest.
    intros H Hall; injection H as <- <-.
    inversion Hall as [|? ? Hp Hps]; subst.
    apply init_fulfilled in Hinit as [_ ->].
    rewrite (IH _ _ _ Hrest Hps). simpl trace.
    rewrite calls_to_app, <- app_assoc. reflexivity.
Qed.

Lemma every_fulfilled_init_requests_pool_witness :
  calls_to Glue.initThreadPool
    (trace (snd (serve (map CallInit [[]; []]) quiet_host new_Worker))) =
  calls_to Glue.initThreadPool (trace new_Worker) ++
  repeat [hardwareConcurrency quiet_host] (length [[]; []] (A := list JsValue)).
Proof.
  apply (@every_fulfilled_init_requests_pool quiet_host [[]; []] new_Worker
           [Fulfilled JsUndefined; Fulfilled JsUndefined]).
  - reflexivity.
  - repeat constructor.
Defined.

(** Counterexample to C5 as the specification words it: after a first
    [init()] has completed and the runtime is ready, a second [init()] is
    fulfilled like the first and has called [initThreadPool] a second
    time. *)
Lemma second_init_requests_pool_again :
  fst (Worker.init [] quiet_host new_Worker) = Fulfilled JsUndefined /\
  runtime_ready quiet_host (trace after_first_init) = true /\
  calls_to Glue.initThreadPool (trace after_first_init) = [[JsNumber 8]] /\
  fst (Worker.init [] quiet_host after_first_init) = Fulfilled JsUndefined /\
  calls_to Glue.initThreadPool
    (trace (snd (Worker.init [] quiet_host after_first_init))) =
  [[JsNumber 8]; [JsNumber 8]].
Proof. repeat split. Qed.

(** C6.  [init()] performs its steps in order.  It always calls the module
    load [init()] first; it goes on to [init_logging(obj)] exactly when the
    awaited module load has completed, and to
    [initThreadPool(navigator.hardwareConcurrency)] exactly when the logging
    install has returned as well; it calls nothing else and nothing twice.
    [init()] is fulfilled exactly when it has reached the pool request and
    the awaited pool start has completed, and it stays pending while the
    pool start never settles. *)
Theorem init_steps_in_order host s arguments :
  exists k,
    1 <= k <= 3 /\
    calls (trace (snd (Worker.init arguments host s))) =
      calls (trace s) ++
      firstn k [(Glue.init, []); (Glue.init_logging, [Worker.obj]);
                (Glue.initThreadPool, [hardwareConcurrency host])] /\
    (2 <= k <-> completed (settles host (trace s) Glue.init []) = true) /\
    (k = 3 <->
       completed (settles host (trace s) Glue.init []) = true /\
       exists w,
         glue host (trace s ++ [load_call]) Glue.init_logging [Worker.obj] =
         Return w) /\
    (forall v, fst (Worker.init arguments host s) = Fulfilled v -> k = 3) /\
    (fst (Worker.init arguments host s) = Fulfilled JsUndefined <->
       k = 3 /\
       completed (settles host (trace s ++ [load_call; logging_call])
                    Glue.initThreadPool [hardwareConcurrency host]) = true) /\
    (k = 3 ->
       settles host (trace s ++ [load_call; logging_call])
         Glue.initThreadPool [hardwareConcurrency host] = Suspended ->
       fst (Worker.init arguments host s) = Pending).
Proof.
  rewrite init_cases.
  destruct (settles host (trace s) Glue.init []) as [v1|e1|].
  - destruct (glue host (trace s ++ [load_call]) Glue.init_logging [Worker.obj])
      as [v2|e2].
    + exists 3.
      destruct (settles host (trace s ++ [load_call; logging_call])
                  Glue.initThreadPool [hardwareConcurrency host]) as [v3|e3|];
        simpl; rewrite calls_app; simpl;
        repeat split; eauto; try lia; intros; try discriminate;
        intuition (try discriminate; try lia).
    + exists 2. simpl; rewrite calls_app; simpl.
      repeat split; auto; try lia; intros; try discriminate;
        try (exfalso; lia).
      destruct H as [_ [w Hw]]. discriminate.
  - exists 1. simpl; rewrite calls_app; simpl.
    repeat split; auto; try lia; intros; try discriminate;
      intuition (try discriminate; try lia).
  - exists 1. simpl; rewrite calls_app; simpl.
    repeat split; auto; try lia; intros; try discriminate;
      intuition (try discriminate; try lia).
Qed.

(** C7.  A fulfilled [init()] has called [initThreadPool] exactly once, with
    the single argument [navigator.hardwareConcurrency]. *)
Theorem fulfilled_init_sizes_pool host s arguments v s' :
  Worker.init arguments host s = (Fulfilled v, s') ->
  calls_to Glue.initThreadPool (trace s') =
  calls_to Glue.initThreadPool (trace s) ++ [[hardwareConcurrency host]].
Proof.
  intros H. apply init_fulfilled in H as [_ ->].
  simpl trace. now rewrite calls_to_app.
Qed.

Lemma fulfilled_init_sizes_pool_witness :
  calls_to Glue.initThreadPool (trace after_first_init) =
  calls_to Glue.initThreadPool (trace new_Worker) ++
  [[hardwareConcurrency quiet_host]].
Proof.
  apply (@fulfilled_init_sizes_pool quiet_host new_Worker [] JsUndefined).
  reflexivity.
Defined.

(** C8 (as the code has it).  [init()] takes no tracing configuration and
    looks at no argument.  Whenever the awaited module load completes it
    calls [init_logging] once, with the fixed object [{ level: 'Trace',
    crate_filters: undefined, span_events: undefined }]; it makes no logging
    call only when the module load did not complete; and it never calls
    [setup_tracing_web]. *)
Theorem init_logging_is_unconditional host s arguments :
  calls_to Glue.init_logging (trace (snd (Worker.init arguments host s))) =
    calls_to Glue.init_logging (trace s) ++
    (if completed (settles host (trace s) Glue.init [])
     then [[Worker.obj]] else []) /\
  calls_to Glue.setup_tracing_web (trace (snd (Worker.init arguments host s))) =
    calls_to Glue.setup_tracing_web (trace s).
Proof.
  rewrite init_cases.
  destruct (settles host (trace s) Glue.init []) as [v1|e1|].
  - destruct (glue host (trace s ++ [load_call]) Glue.init_logging [Worker.obj]).
    + destruct (settles host (trace s ++ [load_call; logging_call])
                  Glue.initThreadPool [hardwareConcurrency host]);
        simpl; rewrite !calls_to_app; simpl; now rewrite app_nil_r.
    + simpl; rewrite !calls_to_app; simpl; now rewrite app_nil_r.
  - simpl; rewrite !calls_to_app; simpl; now rewrite !app_nil_r.
  - simpl; rewrite !calls_to_app; simpl; now rewrite !app_nil_r.
Qed.

(** Counterexample to C8 as the specification words it: [init()] is called
    with no argument at all, so no configuration is supplied, and the
    logging install is made all the same. *)
Lemma init_installs_logging_unasked :
  calls_to Glue.init_logging
    (trace (snd (Worker.init [] quiet_host new_Worker))) = [[Worker.obj]].
Proof. reflexivity. Qed.

(** C9.  A rejected [run()] has changed no field of the worker instance;
    all it added to the history is the [wasm_main] call and the
    [console.error] of the error; and the readiness of the runtime is what
    it was before, so a ready runtime remains ready. *)
Theorem failed_run_keeps_runtime_state host s arguments e s' :
  Worker.run arguments host s = (Rejected e, s') ->
  worker s' = worker s /\
  trace s' = trace s ++ [session_call arguments; EvConsoleError e] /\
  runtime_ready host (trace s') = runtime_ready host (trace s).
Proof.
  rewrite run_cases.
  destruct (settles host (trace s) Glue.wasm_main (Worker.run_params arguments));
    try discriminate.
  intros H; injection H as <- <-. simpl.
  repeat split. rewrite runtime_ready_app. simpl. now rewrite orb_false_r.
Qed.

Lemma failed_run_keeps_runtime_state_witness :
  runtime_ready refusing_host (trace ready_store) = true /\
  worker (snd (Worker.run demo_arguments refusing_host ready_store)) =
    worker ready_store /\
  trace (snd (Worker.run demo_arguments refusing_host ready_store)) =
    trace ready_store ++
    [session_call demo_arguments; EvConsoleError (JsString "ConnectionRefused")] /\
  runtime_ready refusing_host
    (trace (snd (Worker.run demo_arguments refusing_host ready_store))) =
  runtime_ready refusing_host (trace ready_store).
Proof.
  split; [reflexivity|].
  apply (@failed_run_keeps_runtime_state refusing_host ready_store demo_arguments
           (JsString "ConnectionRefused")).
  reflexivity.
Defined.

(** C10.  The bootstrap script runs [run()] at its top level, whatever the
    host and the store.  The history it adds is a non-empty prefix of:
    [init()], [initThreadPool(navigator.hardwareConcurrency)],
    [wasm_start()], each step reached exactly when the awaited step before
    it has completed.  So there is no tracing install and no
    [console.error]; and [run()] is fulfilled exactly when all three steps
    have completed. *)
Theorem bootstrap_starts_itself host s :
  worker (Bootstrap.top_level host s) = worker s /\
  exists k,
    1 <= k <= 3 /\
    trace (Bootstrap.top_level host s) =
      trace s ++ firstn k [load_call; pool_call host; start_call] /\
    (2 <= k <-> completed (settles host (trace s) Glue.init []) = true) /\
    (k = 3 <->
       completed (settles host (trace s) Glue.init []) = true /\
       completed (settles host (trace s ++ [load_call]) Glue.initThreadPool
                    [hardwareConcurrency host]) = true) /\
    (fst (Bootstrap.run [] host s) = Fulfilled JsUndefined <->
       k = 3 /\
       completed (settles host (trace s ++ [load_call; pool_call host])
                    Glue.wasm_start []) = true).
Proof.
  unfold Bootstrap.top_level. rewrite bootstrap_run_cases.
  destruct (settles host (trace s) Glue.init []) as [v1|e1|].
  - destruct (settles host (trace s ++ [load_call]) Glue.initThreadPool
                [hardwareConcurrency host]) as [v2|e2|].
    + destruct (settles host (trace s ++ [load_call; pool_call host])
                  Glue.wasm_start []) as [v3|e3|];
        (split; [reflexivity|]); exists 3; simpl;
        repeat split; auto; try lia; intros; try discriminate;
        intuition (try discriminate; try lia).
    + (split; [reflexivity|]); exists 2; simpl;
        repeat split; auto; try lia; intros; try discriminate;
        intuition (try discriminate; try lia).
    + (split; [reflexivity|]); exists 2; simpl;
        repeat split; auto; try lia; intros; try discriminate;
        intuition (try discriminate; try lia).
  - (split; [reflexivity|]); exists 1; simpl;
      repeat split; auto; try lia; intros; try discriminate;
      intuition (try discriminate; try lia).
  - (split; [reflexivity|]); exists 1; simpl;
      repeat split; auto; try lia; intros; try discriminate;
      intuition (try discriminate; try lia).
Qed.

(** * Further properties of the worker *)

(** ** What one request adds to the store *)

Lemma logged_errors_app t1 t2 :
  logged_errors (t1 ++ t2) = logged_errors t1 ++ logged_errors t2.
Proof.
  induction t1 as [|[g args|e] t1 IH]; simpl; auto; now rewrite IH.
Qed.

Lemma run_params_padded arguments :
  Worker.run_params arguments = firstn 5 (arguments ++ repeat JsUndefined 5).
Proof.
  destruct arguments as [|a0 [|a1 [|a2 [|a3 [|a4 rest]]]]]; reflexivity.
Qed.

(** A request only appends to the history, and what it appends is all it
    does to the store. *)
Lemma invoke_extends r host s :
  exists evs, snd (invoke r host s) = log evs s.
Proof.
  destruct r as [arguments|arguments]; simpl.
  - rewrite init_cases.
    destruct (settles host (trace s) Glue.init []);
      [ | eexists; reflexivity | eexists; reflexivity ].
    destruct (glue host (trace s ++ [load_call]) Glue.init_logging [Worker.obj]);
      [ | eexists; reflexivity ].
    destruct (settles host (trace s ++ [load_call; logging_call])
                Glue.initThreadPool [hardwareConcurrency host]);
      eexists; reflexivity.
  - rewrite run_cases.
    destruct (settles host (trace s) Glue.wasm_main (Worker.run_params arguments));
      eexists; reflexivity.
Qed.

Lemma serve_extends rs host : forall s,
  exists evs, snd (serve rs host s) = log evs s.
Proof.
  induction rs as [|r rs IH]; intros s; simpl.
  - exists []. unfold log; simpl. rewrite app_nil_r. now destruct s.
  - destruct (invoke_extends r host s) as [evs1 H1].
    destruct (invoke r host s) as [p s1]; simpl in H1; subst s1.
    destruct (IH (log evs1 s)) as [evs2 H2].
    destruct (serve rs host (log evs1 s)) as [ps s2]; simpl in *; subst s2.
    exists (evs1 ++ evs2). apply log_log.
Qed.

Ltac split_init host s :=
  rewrite init_cases;
  destruct (settles host (trace s) Glue.init []) as [?v|?e|] eqn:?Hload;
  [ destruct (glue host (trace s ++ [load_call]) Glue.init_logging [Worker.obj])
      as [?w|?e] eqn:?Hlog;
    [ destruct (settles host (trace s ++ [load_call; logging_call])
                  Glue.initThreadPool [hardwareConcurrency host])
        as [?u|?e|] eqn:?Hpool
    | ]
  | | ].

Ltac split_run host s arguments :=
  rewrite run_cases;
  destruct (settles host (trace s) Glue.wasm_main (Worker.run_params arguments))
    as [?v|?e|] eqn:?Hrun.

Ltac split_request r host s :=
  let arguments := fresh "arguments" in
  destruct r as [arguments|arguments]; simpl invoke;
  [ split_init host s | split_run host s arguments ].

Lemma invoke_sessions r host s :
  calls_to Glue.wasm_main (trace (snd (invoke r host s))) =
  calls_to Glue.wasm_main (trace s) ++ session_requests [r].
Proof.
  split_request r host s; simpl;
    rewrite calls_to_app; simpl; reflexivity.
Qed.

Lemma invoke_pool_requests r host s :
  exists n,
    n <= init_requests [r] /\
    calls_to Glue.initThreadPool (trace (snd (invoke r host s))) =
    calls_to Glue.initThreadPool (trace s) ++ repeat [hardwareConcurrency host] n.
Proof.
  split_request r host s; simpl;
    rewrite calls_to_app; simpl;
    first [ exists 1; split; [lia | reflexivity]
          | exists 0; split; [lia | reflexivity] ].
Qed.

(** X1.  Whatever the number of arguments, [run()] calls [wasm_main] with
    exactly five values: the caller's first five, with [undefined] for each
    one that is missing; arguments after the fifth are dropped.  It is the
    only imported function that [run()] calls. *)
Theorem run_pads_and_truncates host s arguments :
  calls (trace (snd (Worker.run arguments host s))) =
  calls (trace s) ++
  [(Glue.wasm_main, firstn 5 (arguments ++ repeat JsUndefined 5))].
Proof.
  rewrite <- run_params_padded.
  split_run host s arguments; simpl; now rewrite calls_app.
Qed.

(** X2.  [init()] does not await [init_logging].  When the module load has
    completed, [init_logging] returns whatever value [w] (also a promise
    that is rejected or never settles) and the awaited pool start completes,
    [init()] is fulfilled and nothing is logged with [console.error]. *)
Theorem init_ignores_logging_result host s arguments v w u :
  settles host (trace s) Glue.init [] = Normal v ->
  glue host (trace s ++ [load_call]) Glue.init_logging [Worker.obj] = Return w ->
  settles host (trace s ++ [load_call; logging_call]) Glue.initThreadPool
    [hardwareConcurrency host] = Normal u ->
  Worker.init arguments host s =
  (Fulfilled JsUndefined, log [load_call; logging_call; pool_call host] s).
Proof. intros H1 H2 H3. now rewrite init_cases, H1, H2, H3. Qed.

Lemma init_ignores_logging_result_witness :
  Worker.init [] careless_logging_host new_Worker =
  (Fulfilled JsUndefined,
   log [load_call; logging_call; pool_call careless_logging_host] new_Worker).
Proof.
  apply (@init_ignores_logging_result careless_logging_host new_Worker []
           JsUndefined (JsPromise (Rejected (JsString "no subscriber")))
           JsUndefined);
    reflexivity.
Defined.

(** X4.  A request writes with [console.error] exactly when it is
    rejected: a rejected [init] or [run] request has written one entry, its
    rejection reason, and a request that is fulfilled or left pending has
    written none. *)
Theorem request_logs_exactly_its_rejection r host s :
  logged_errors (trace (snd (invoke r host s))) =
  logged_errors (trace s) ++
  match fst (invoke r host s) with
  | Rejected e => [e]
  | _ => []
  end.
Proof.
  split_request r host s; simpl;
    rewrite logged_errors_app; simpl; reflexivity.
Qed.

(** X5.  Over any sequence of requests, the sessions started (calls of
    [wasm_main]) are exactly the [run] requests, in order, each with the
    five parameters of its request; an [init] request never starts one. *)
Theorem sessions_are_the_run_requests rs host : forall s,
  calls_to Glue.wasm_main (trace (snd (serve rs host s))) =
  calls_to Glue.wasm_main (trace s) ++ session_requests rs.
Proof.
  induction rs as [|r rs IH]; intros s; simpl.
  - now rewrite app_nil_r.
  - pose proof (invoke_sessions r host s) as H1.
    destruct (invoke r host s) as [p s1]. specialize (IH s1).
    destruct (serve rs host s1) as [ps s2]. simpl in *.
    rewrite IH, H1, <- app_assoc. f_equal.
    destruct r; simpl; now rewrite ?app_nil_r.
Qed.

(** X6.  Over any sequence of requests, every pool request
    ([initThreadPool] call) has [navigator.hardwareConcurrency] as its only
    argument, and there are at most as many of them as [init] requests; a
    [run] request never makes one. *)
Theorem pool_requests_bounded_by_inits rs host : forall s,
  exists n,
    n <= init_requests rs /\
    calls_to Glue.initThreadPool (trace (snd (serve rs host s))) =
    calls_to Glue.initThreadPool (trace s) ++ repeat [hardwareConcurrency host] n.
Proof.
  induction rs as [|r rs IH]; intros s; simpl.
  - exists 0. split; [lia | now rewrite app_nil_r].
  - destruct (invoke_pool_requests r host s) as [n1 [Hn1 H1]].
    destruct (invoke r host s) as [p s1].
    destruct (IH s1) as [n2 [Hn2 H2]].
    destruct (serve rs host s1) as [ps s2]. simpl in *.
    exists (n1 + n2). split.
    + destruct r; simpl in *; lia.
    + now rewrite H2, H1, <- app_assoc, repeat_app.
Qed.

(** ** Readiness *)

Lemma run_keeps_readiness arguments host s :
  runtime_ready host (trace (snd (Worker.run arguments host s))) =
  runtime_ready host (trace s).
Proof.
  split_run host s arguments; simpl;
    rewrite runtime_ready_app; simpl; now rewrite orb_false_r.
Qed.

(** X7.  Once an [init()] has been fulfilled the runtime is ready, that is,
    an awaited [initThreadPool] call has completed, and it stays ready
    through every later sequence of requests, failed ones included. *)
Theorem fulfilled_init_makes_ready_for_good host s arguments v s1 :
  Worker.init arguments host s = (Fulfilled v, s1) ->
  forall rs, runtime_ready host (trace (snd (serve rs host s1))) = true.
Proof.
  intros Hinit rs.
  assert (Hready : runtime_ready host (trace s1) = true).
  { revert Hinit. split_init host s; try discriminate.
    intros H; injection H as _ <-. simpl trace.
    rewrite runtime_ready_app. simpl.
    rewrite <- app_assoc. simpl app. rewrite Hpool. simpl.
    now rewrite orb_true_r. }
  destruct (serve_extends rs host s1) as [evs ->]. simpl trace.
  now apply runtime_ready_mono.
Qed.

Lemma fulfilled_init_makes_ready_for_good_witness :
  runtime_ready refusing_host
    (trace (snd (serve [CallRun demo_arguments; CallInit []] refusing_host
                   ready_store))) = true.
Proof.
  apply (@fulfilled_init_makes_ready_for_good refusing_host new_Worker []
           JsUndefined ready_store).
  reflexivity.
Defined.

(** X8.  Readiness changes through [init] only: a sequence of requests
    without an [init] request, however its [run] requests end, leaves the
    runtime exactly as ready as it was. *)
Theorem only_init_changes_readiness rs host : forall s,
  init_requests rs = 0 ->
  runtime_ready host (trace (snd (serve rs host s))) =
  runtime_ready host (trace s).
Proof.
  induction rs as [|[arguments|arguments] rs IH]; intros s; simpl;
    try discriminate; auto.
  intros Hrs. pose proof (run_keeps_readiness arguments host s) as H1.
  destruct (Worker.run arguments host s) as [p s1].
  specialize (IH s1 Hrs). destruct (serve rs host s1) as [ps s2].
  simpl in *. now rewrite IH.
Qed.

Lemma only_init_changes_readiness_witness :
  runtime_ready quiet_host
    (trace (snd (serve [CallRun demo_arguments; CallRun []] quiet_host
                   new_Worker))) =
  runtime_ready quiet_host (trace new_Worker).
Proof.
  apply (@only_init_changes_readiness [CallRun demo_arguments; CallRun []]
           quiet_host new_Worker).
  reflexivity.
Defined.

(** ** The bootstrap script *)

(** X9.  The bootstrap script keeps the order that the worker class does
    not enforce: it calls [wasm_start] at most once, and only at a point
    of the history where the awaited pool start has completed. *)
Theorem bootstrap_starts_only_when_ready host s :
  calls_to Glue.wasm_start (trace (Bootstrap.top_level host s)) =
    calls_to Glue.wasm_start (trace s) \/
  (trace (Bootstrap.top_level host s) =
     trace s ++ [load_call; pool_call host; start_call] /\
   runtime_ready host (trace s ++ [load_call; pool_call host]) = true).
Proof.
  unfold Bootstrap.top_level. rewrite bootstrap_run_cases.
  destruct (settles host (trace s) Glue.init []) as [v1|e1|];
    [ | left; simpl; rewrite calls_to_app; simpl; now rewrite app_nil_r .. ].
  destruct (settles host (trace s ++ [load_call]) Glue.initThreadPool
              [hardwareConcurrency host]) as [v2|e2|] eqn:Hpool;
    [ | left; simpl; rewrite calls_to_app; simpl; now rewrite app_nil_r .. ].
  right. split.
  - destruct (settles host (trace s ++ [load_call; pool_call host])
                Glue.wasm_start []); reflexivity.
  - rewrite runtime_ready_app. simpl. rewrite Hpool. simpl.
    now rewrite orb_true_r.
Qed.

(** X10.  The bootstrap [run()] has no handler: its promise is rejected
    with [e] exactly when one of its three awaited steps, reached in order,
    raises [e]; and whatever happens, the script writes nothing with
    [console.error]. *)
Theorem bootstrap_errors_are_unhandled host s arguments e :
  (fst (Bootstrap.run arguments host s) = Rejected e <->
     settles host (trace s) Glue.init [] = Thrown e \/
     (completed (settles host (trace s) Glue.init []) = true /\
      settles host (trace s ++ [load_call]) Glue.initThreadPool
        [hardwareConcurrency host] = Thrown e) \/
     (completed (settles host (trace s) Glue.init []) = true /\
      completed (settles host (trace s ++ [load_call]) Glue.initThreadPool
                   [hardwareConcurrency host]) = true /\
      settles host (trace s ++ [load_call; pool_call host]) Glue.wasm_start []
        = Thrown e)) /\
  logged_errors (trace (snd (Bootstrap.run arguments host s))) =
    logged_errors (trace s).
Proof.
  rewrite bootstrap_run_cases.
  destruct (settles host (trace s) Glue.init []) as [v1|e1|].
  - destruct (settles host (trace s ++ [load_call]) Glue.initThreadPool
                [hardwareConcurrency host]) as [v2|e2|].
    + destruct (settles host (trace s ++ [load_call; pool_call host])
                  Glue.wasm_start []) as [v3|e3|];
        simpl; rewrite logged_errors_app, app_nil_r;
        (split; [|reflexivity]); split;
        [ discriminate | intros [H|[[_ H]|[_ [_ H]]]]; discriminate
        | intros H; injection H as ->; auto
        | intros [H|[[_ H]|[_ [_ H]]]]; try discriminate; now injection H as ->
        | discriminate | intros [H|[[_ H]|[_ [_ H]]]]; discriminate ].
    + simpl; rewrite logged_errors_app, app_nil_r.
      (split; [|reflexivity]); split;
        [ intros H; injection H as ->; auto
        | intros [H|[[_ H]|[_ [H _]]]]; try discriminate; now injection H as -> ].
    + simpl; rewrite logged_errors_app, app_nil_r.
      (split; [|reflexivity]); split;
        [ discriminate | intros [H|[[_ H]|[_ [H _]]]]; discriminate ].
  - simpl; rewrite logged_errors_app, app_nil_r.
    (split; [|reflexivity]); split;
      [ intros H; injection H as ->; auto
      | intros [H|[[H _]|[H _]]]; try discriminate; now injection H as -> ].
  - simpl; rewrite logged_errors_app, app_nil_r.
    (split; [|reflexivity]); split;
      [ discriminate | intros [H|[[H _]|[H _]]]; discriminate ].
Qed.

(** * The rustdoc implementors file *)

Lemma get_set_same k v w :
  Implementors.get_property k (Implementors.set_property k v w) = Some v.
Proof.
  induction w as [|[k' v'] w IH]; simpl.
  - now rewrite String.eqb_refl.
  - destruct (String.eqb k k') eqn:E; simpl.
    + now rewrite String.eqb_refl.
    + now rewrite E.
Qed.

Lemma get_set_other k k' v w :
  k' <> k ->
  Implementors.get_property k' (Implementors.set_property k v w) =
  Implementors.get_property k' w.
Proof.
  intros Hne. induction w as [|[k0 v0] w IH]; simpl.
  - apply String.eqb_neq in Hne. now rewrite Hne.
  - destruct (String.eqb k k0) eqn:E; simpl.
    + apply String.eqb_eq in E; subst k0.
      apply String.eqb_neq in Hne. now rewrite Hne.
    + now rewrite IH.
Qed.


(** X11.  When [window.register_implementors] is missing or falsy, the
    script calls nothing and completes normally; afterwards
    [window.pending_implementors] reads back as the table, and every other
    property of [window] reads as before. *)
Theorem table_is_parked_when_unregistered implementors b p :
  Implementors.to_boolean
    (Implementors.get_property "register_implementors" (Implementors.window p))
    = false ->
  fst (Implementors.script implementors b p) = Return JsUndefined /\
  Implementors.called (snd (Implementors.script implementors b p)) =
    Implementors.called p /\
  Implementors.get_property "pending_implementors"
    (Implementors.window (snd (Implementors.script implementors b p))) =
    Some (Implementors.Data implementors) /\
  forall k, k <> "pending_implementors" ->
    Implementors.get_property k
      (Implementors.window (snd (Implementors.script implementors b p))) =
    Implementors.get_property k (Implementors.window p).
Proof.
  intros H. unfold Implementors.script. rewrite H. simpl.
  repeat split.
  - apply get_set_same.
  - intros k Hk. now apply get_set_other.
Qed.

Lemma table_is_parked_when_unregistered_witness :
  fst (Implementors.script JsNull Implementors.idle_browser
         Implementors.early_page) = Return JsUndefined /\
  Implementors.called
    (snd (Implementors.script JsNull Implementors.idle_browser
            Implementors.early_page)) =
    Implementors.called Implementors.early_page /\
  Implementors.get_property "pending_implementors"
    (Implementors.window
       (snd (Implementors.script JsNull Implementors.idle_browser
               Implementors.early_page))) =
    Some (Implementors.Data JsNull) /\
  forall k, k <> "pending_implementors" ->
    Implementors.get_property k
      (Implementors.window
         (snd (Implementors.script JsNull Implementors.idle_browser
                 Implementors.early_page))) =
    Implementors.get_property k (Implementors.window Implementors.early_page).
Proof.
  apply (@table_is_parked_when_unregistered JsNull Implementors.idle_browser
           Implementors.early_page).
  reflexivity.
Defined.

(** X12.  The table is never dropped: whenever the script completes
    normally, it has either made exactly one call, of the function in
    [window.register_implementors] with the table as the only argument, or
    made no call and left the table readable in
    [window.pending_implementors]. *)
Theorem table_is_delivered_or_parked implementors b p v :
  fst (Implementors.script implementors b p) = Return v ->
  (exists id,
     Implementors.get_property "register_implementors" (Implementors.window p)
       = Some (Implementors.Function id) /\
     Implementors.called (snd (Implementors.script implementors b p)) =
       Implementors.called p ++ [(id, [implementors])]) \/
  (Implementors.called (snd (Implementors.script implementors b p)) =
     Implementors.called p /\
   Implementors.get_property "pending_implementors"
     (Implementors.window (snd (Implementors.script implementors b p))) =
     Some (Implementors.Data implementors)).
Proof.
  unfold Implementors.script.
  destruct (Implementors.to_boolean
              (Implementors.get_property "register_implementors"
                 (Implementors.window p))) eqn:Hreg.
  - destruct (Implementors.get_property "register_implementors"
                (Implementors.window p)) as [[d|id]|]; try discriminate.
    destruct (Implementors.apply b id (Implementors.window p) [implementors])
      as [[r|e] w']; simpl; try discriminate.
    intros _. left. now exists id.
  - intros _. right. simpl. split; [reflexivity | apply get_set_same].
Qed.

Lemma table_is_delivered_or_parked_witness :
  (exists id,
     Implementors.get_property "register_implementors"
       (Implementors.window Implementors.early_page)
       = Some (Implementors.Function id) /\
     Implementors.called
       (snd (Implementors.script JsNull Implementors.idle_browser
               Implementors.early_page)) =
       Implementors.called Implementors.early_page ++ [(id, [JsNull])]) \/
  (Implementors.called
     (snd (Implementors.script JsNull Implementors.idle_browser
             Implementors.early_page)) =
     Implementors.called Implementors.early_page /\
   Implementors.get_property "pending_implementors"
     (Implementors.window
        (snd (Implementors.script JsNull Implementors.idle_browser
                Implementors.early_page))) =
     Some (Implementors.Data JsNull)).
Proof.
  apply (@table_is_delivered_or_parked JsNull Implementors.idle_browser
           Implementors.early_page JsUndefined).
  reflexivity.
Defined.


